(** * ERPNext CRM Settings: a shallow embedding of
    [crm/fcrm/doctype/erpnext_crm_settings/erpnext_crm_settings.py]

    The module is glue code between a CRM site and an ERPNext site.  Every
    function reads or writes the Frappe database, calls the remote site or
    raises, so the embedding is a state-and-exception monad over a [World]
    that holds the documents the module touches, the trace of outbound and
    in-process calls, and the error log.  What the Frappe framework and the
    ERPNext site do is not part of the module; it is taken as a record of
    oracles, [Framework]. *)

From Stdlib Require Import String Ascii List ZArith.
From stdpp Require Import gmap strings list fin_maps.

Local Open Scope string_scope.
Local Open Scope list_scope.

(** ** Text *)

Definition dq : string := String "034"%char EmptyString.
Definition nl : string := String "010"%char EmptyString.
Definition tab : string := String "009"%char EmptyString.

(** [t] occurs in [s]. *)
Definition contains (s t : string) : Prop :=
  exists before after : string, s = before +:+ t +:+ after.

(** ** Documents *)

(** A Python value stored in a document field or sent in a request. *)
Inductive scalar :=
| Str (s : string)
| Int (n : Z).

(** A Python dict literal with string keys, in insertion order (the order
    [json.dumps] and the HTTP client emit). *)
Definition dict := list (string * scalar).

(** The single document "ERPNext CRM Settings". *)
Record Settings := {
  enabled : bool;
  is_erpnext_in_the_current_site : bool;
  erpnext_site_url : string;
  api_key : string;
  api_secret : string;
  erpnext_company : string;
}.

(** A row of the child table [contacts] of a CRM Deal.  The row carries more
    than what [get_contacts] reads ([phone], [idx]). *)
Record ContactRow := {
  contact : string;
  full_name : string;
  email : string;
  mobile_no : string;
  gender : string;
  is_primary : Z;
  phone : string;
  idx : Z;
}.

(** A "CRM Deal" document, with the fields the module reads. *)
Record Deal := {
  name : string;
  organization : string;
  lead_name : string;
  no_of_employees : string;
  deal_owner : string;
  territory : string;
  industry : string;
  website : string;
  annual_revenue : string;
  currency : string;
  status : string;
  contacts : list ContactRow;
}.

(** ** The remote client and the calls that leave the module *)

(** A [FrappeClient] with key authentication. *)
Record Client := {
  url : string;
  key : string;
  secret : string;
}.

(** One [client.post_api(method, params)]. *)
Record RemoteCall := {
  rc_client : Client;
  rc_method : string;
  rc_params : dict;
}.

(** One in-process call into [erpnext.crm.frappe_crm_api]. *)
Inductive LocalCall :=
| create_custom_fields_for_frappe_crm
| create_customer (customer : dict).

(** ** Exceptions *)

(** [ValidationError] is what [frappe.throw] raises: its message is shown to
    the user.  [Exception] stands for every other Python exception; [text] is
    the last line of its traceback. *)
Inductive exn :=
| ValidationError (msg : string)
| Exception (text : string).

Definition exn_text (e : exn) : string :=
  match e with
  | ValidationError msg => "frappe.exceptions.ValidationError: " +:+ msg
  | Exception text => text
  end.

(** Modelled from the spec: [frappe.get_traceback()] is a function of the
    framework; inside an [except] block that caught [e] it gives the stack
    trace, which carries the text of [e]. *)
Definition get_traceback (e : exn) : string :=
  "Traceback (most recent call last):" +:+ nl +:+ exn_text e +:+ nl.

(** An "Error Log" document. *)
Record LogEntry := {
  log_message : string;
  log_title : string;
}.

(** ** The world *)

Record World := {
  settings : Settings;
  installed_apps : list string;
  property_setters : gmap string dict;
  form_scripts : gmap string dict;
  deals : gmap string Deal;
  local_calls : list LocalCall;
  remote_calls : list RemoteCall;
  error_log : list LogEntry;
}.

Definition set_property_setters (f : gmap string dict -> gmap string dict) (w : World) : World :=
  {| settings := settings w; installed_apps := installed_apps w;
     property_setters := f (property_setters w); form_scripts := form_scripts w;
     deals := deals w; local_calls := local_calls w;
     remote_calls := remote_calls w; error_log := error_log w |}.

Definition set_form_scripts (f : gmap string dict -> gmap string dict) (w : World) : World :=
  {| settings := settings w; installed_apps := installed_apps w;
     property_setters := property_setters w; form_scripts := f (form_scripts w);
     deals := deals w; local_calls := local_calls w;
     remote_calls := remote_calls w; error_log := error_log w |}.

Definition set_local_calls (f : list LocalCall -> list LocalCall) (w : World) : World :=
  {| settings := settings w; installed_apps := installed_apps w;
     property_setters := property_setters w; form_scripts := form_scripts w;
     deals := deals w; local_calls := f (local_calls w);
     remote_calls := remote_calls w; error_log := error_log w |}.

Definition set_remote_calls (f : list RemoteCall -> list RemoteCall) (w : World) : World :=
  {| settings := settings w; installed_apps := installed_apps w;
     property_setters := property_setters w; form_scripts := form_scripts w;
     deals := deals w; local_calls := local_calls w;
     remote_calls := f (remote_calls w); error_log := error_log w |}.

Definition set_error_log (f : list LogEntry -> list LogEntry) (w : World) : World :=
  {| settings := settings w; installed_apps := installed_apps w;
     property_setters := property_setters w; form_scripts := form_scripts w;
     deals := deals w; local_calls := local_calls w;
     remote_calls := remote_calls w; error_log := f (error_log w) |}.

(** ** The monad: state, and Python's exceptions *)

Inductive outcome (A : Type) :=
| Return (a : A)
| Raise (e : exn).
Arguments Return {A} a.
Arguments Raise {A} e.

Definition M (A : Type) : Type := World -> outcome A * World.

#[global] Instance M_ret : MRet M := fun A a w => (Return a, w).

#[global] Instance M_bind : MBind M := fun A B k m w =>
  match m w with
  | (Return a, w') => k a w'
  | (Raise e, w') => (Raise e, w')
  end.

Definition raise {A : Type} (e : exn) : M A := fun w => (Raise e, w).

(** [try: body / except Exception: handler]: the handler runs in the state
    the body left behind, and knows the exception it caught. *)
Definition try_except {A : Type} (body : M A) (handler : exn -> M A) : M A := fun w =>
  match body w with
  | (Return a, w') => (Return a, w')
  | (Raise e, w') => handler e w'
  end.

Definition gets {A : Type} (f : World -> A) : M A := fun w => (Return (f w), w).
Definition modify (f : World -> World) : M unit := fun w => (Return tt, f w).

(** What a run returned or raised, and the world it left. *)
Definition result {A : Type} (r : outcome A * World) : outcome A := fst r.
Definition world_after {A : Type} (r : outcome A * World) : World := snd r.

(** ** The Frappe framework and the ERPNext site, as oracles

    None of these is code of the module.  [translate] is [frappe._];
    [get_url_to_form] and [json_dumps] are the library functions of these
    names; [client_init] says whether constructing a [FrappeClient] raises;
    [remote_response] and [local_response] say what the remote procedure
    and the in-process ERPNext function answer, given the calls made before.
    An in-process function is imported from [erpnext.crm.frappe_crm_api]
    right before it is called; when [local_response] raises,
    [raised_by_import] says whether it was that import statement. *)
Record Framework := {
  translate : string -> string;
  get_url_to_form : string -> string;
  json_dumps : list dict -> string;
  client_init : string -> string -> string -> option exn;
  remote_response : list RemoteCall -> RemoteCall -> outcome string;
  local_response : list LocalCall -> LocalCall -> option exn;
  raised_by_import : list LocalCall -> LocalCall -> bool;
}.

Fixpoint dict_get (k : string) (d : dict) : option scalar :=
  match d with
  | [] => None
  | (k', v) :: d' => if String.eqb k k' then Some v else dict_get k d'
  end.

Section Frappe.
Variable fw : Framework.

(** [frappe.throw(msg)] *)
Definition throw {A : Type} (msg : string) : M A := raise (ValidationError msg).

(** [frappe.log_error(message, title)] inserts an Error Log. *)
Definition log_error (message title : string) : M unit :=
  modify (set_error_log (fun l => l ++ [{| log_message := message; log_title := title |}])).

(** [frappe.get_installed_apps()] *)
Definition get_installed_apps : M (list string) := gets installed_apps.

(** [frappe.get_single("ERPNext CRM Settings")] *)
Definition get_single : M Settings := gets settings.

(** [frappe.get_doc("CRM Deal", name)] raises when there is no such deal. *)
Definition get_doc (deal_name : string) : M Deal := fun w =>
  match deals w !! deal_name with
  | Some doc => (Return doc, w)
  | None =>
      (Raise (Exception ("frappe.exceptions.DoesNotExistError: CRM Deal " +:+ deal_name +:+ " not found")), w)
  end.

(** [frappe.db.exists("Property Setter", {"name": n})] *)
Definition exists_property_setter (n : string) : M bool :=
  gets (fun w => match property_setters w !! n with Some _ => true | None => false end).

(** [frappe.db.exists("CRM Form Script", n)] *)
Definition exists_form_script (n : string) : M bool :=
  gets (fun w => match form_scripts w !! n with Some _ => true | None => false end).

(** Modelled from the spec: [make_property_setter] is a function of the
    framework; the record it creates is keyed by a name derived from
    doctype, field and property, the name [add_quotation_to_option] looks
    up. *)
Definition make_property_setter
    (doctype fieldname property value property_type : string)
    (validate_fields_for_doctype : bool) : M unit :=
  modify (set_property_setters
    (insert (doctype +:+ "-" +:+ fieldname +:+ "-" +:+ property)
       [("doctype", Str "Property Setter");
        ("doc_type", Str doctype);
        ("field_name", Str fieldname);
        ("property", Str property);
        ("value", Str value);
        ("property_type", Str property_type)])).

(** [frappe.get_doc(d).insert()] for a CRM Form Script: the document is
    stored under its ["name"]; a name already taken raises. *)
Definition insert_doc (d : dict) : M unit := fun w =>
  match dict_get "doctype" d, dict_get "name" d with
  | Some (Str "CRM Form Script"), Some (Str n) =>
      match form_scripts w !! n with
      | Some _ => (Raise (Exception ("frappe.exceptions.DuplicateEntryError: CRM Form Script " +:+ n)), w)
      | None => (Return tt, set_form_scripts (insert n d) w)
      end
  | _, _ => (Raise (Exception "frappe.exceptions.ValidationError: cannot insert"), w)
  end.

(** [FrappeClient(url, api_key=..., api_secret=...)] *)
Definition FrappeClient (site_url k s : string) : M Client := fun w =>
  match client_init fw site_url k s with
  | Some e => (Raise e, w)
  | None => (Return {| url := site_url; key := k; secret := s |}, w)
  end.

(** [client.post_api(method, params)]: the call is made, then it answers
    or raises. *)
Definition post_api (client : Client) (method : string) (params : dict) : M string := fun w =>
  let call := {| rc_client := client; rc_method := method; rc_params := params |} in
  (remote_response fw (remote_calls w) call, set_remote_calls (fun l => l ++ [call]) w).

(** [from erpnext.crm.frappe_crm_api import f] followed by the call of
    [f], in process.  When the import raises, the function is not called;
    otherwise the call is made, then it returns or raises. *)
Definition call_local (c : LocalCall) : M unit := fun w =>
  let w' := set_local_calls (fun l => l ++ [c]) w in
  match local_response fw (local_calls w) c with
  | Some e => if raised_by_import fw (local_calls w) c then (Raise e, w) else (Raise e, w')
  | None => (Return tt, w')
  end.
End Frappe.

(** ** The module *)

Definition quotation_to_link_filters : string :=
  "[[" +:+ dq +:+ "DocType" +:+ dq +:+ "," +:+ dq +:+ "name" +:+ dq +:+ ","
  +:+ dq +:+ "in" +:+ dq +:+ ", [" +:+ dq +:+ "Customer" +:+ dq +:+ ", "
  +:+ dq +:+ "Lead" +:+ dq +:+ ", " +:+ dq +:+ "Prospect" +:+ dq +:+ ", "
  +:+ dq +:+ "Frappe CRM Deal" +:+ dq +:+ "]]]".

Definition get_crm_form_script : string :=
  nl +:+
  "function setupForm({ doc, call, $dialog, updateField, createToast }) {" +:+ nl +:+
  tab +:+ "let actions = [];" +:+ nl +:+
  tab +:+ "if (![" +:+ dq +:+ "Lost" +:+ dq +:+ ", " +:+ dq +:+ "Won" +:+ dq +:+ "].includes(doc?.status)) {" +:+ nl +:+
  tab +:+ tab +:+ "actions.push({" +:+ nl +:+
  tab +:+ tab +:+ tab +:+ "label: __(" +:+ dq +:+ "Create Quotation" +:+ dq +:+ ")," +:+ nl +:+
  tab +:+ tab +:+ tab +:+ "onClick: async () => {" +:+ nl +:+
  tab +:+ tab +:+ tab +:+ tab +:+ "let quotation_url = await call(" +:+ nl +:+
  tab +:+ tab +:+ tab +:+ tab +:+ tab +:+ dq +:+
    "crm.fcrm.doctype.erpnext_crm_settings.erpnext_crm_settings.get_quotation_url" +:+ dq +:+ ", " +:+ nl +:+
  tab +:+ tab +:+ tab +:+ tab +:+ tab +:+ "{" +:+ nl +:+
  tab +:+ tab +:+ tab +:+ tab +:+ tab +:+ tab +:+ "crm_deal: doc.name," +:+ nl +:+
  tab +:+ tab +:+ tab +:+ tab +:+ tab +:+ tab +:+ "organization: doc.organization" +:+ nl +:+
  tab +:+ tab +:+ tab +:+ tab +:+ tab +:+ "}" +:+ nl +:+
  tab +:+ tab +:+ tab +:+ tab +:+ ");" +:+ nl +:+
  nl +:+
  tab +:+ tab +:+ tab +:+ tab +:+ "if (quotation_url) {" +:+ nl +:+
  tab +:+ tab +:+ tab +:+ tab +:+ tab +:+ "window.open(quotation_url, '_blank');" +:+ nl +:+
  tab +:+ tab +:+ tab +:+ tab +:+ "}" +:+ nl +:+
  tab +:+ tab +:+ tab +:+ "}" +:+ nl +:+
  tab +:+ tab +:+ "})" +:+ nl +:+
  tab +:+ "}" +:+ nl +:+
  tab +:+ nl +:+
  tab +:+ "return {" +:+ nl +:+
  tab +:+ tab +:+ "actions: actions," +:+ nl +:+
  tab +:+ "};" +:+ nl +:+
  "}" +:+ nl.

(** [get_contacts]: the loop appends one projected dict per row. *)
Definition get_contacts (doc : Deal) : list dict :=
  fold_left
    (fun acc c =>
       acc ++ [[("contact", Str (contact c));
                ("full_name", Str (full_name c));
                ("email", Str (email c));
                ("mobile_no", Str (mobile_no c));
                ("gender", Str (gender c));
                ("is_primary", Int (is_primary c))]])
    (contacts doc) [].

Section ERPNextCRMSettings.
Variable fw : Framework.

Definition get_erpnext_site_client (erpnext_crm_settings : Settings) : M Client :=
  let site_url := erpnext_site_url erpnext_crm_settings in
  let k := api_key erpnext_crm_settings in
  let s := api_secret erpnext_crm_settings in
  FrappeClient fw site_url k s.

(** *** Methods of the document class [ERPNextCRMSettings] *)

Definition validate_if_erpnext_installed (self : Settings) : M unit :=
  if is_erpnext_in_the_current_site self then
    apps ← get_installed_apps;
    if negb (bool_decide ("erpnext" ∈ apps)) then
      throw (translate fw "ERPNext is not installed in the current site")
    else mret tt
  else mret tt.

Definition add_quotation_to_option (self : Settings) : M unit :=
  if is_erpnext_in_the_current_site self then
    found ← exists_property_setter "Quotation-quotation_to-link_filters";
    if negb found then
      make_property_setter "Quotation" "quotation_to" "link_filters"
        quotation_to_link_filters "JSON" false
    else mret tt
  else mret tt.

Definition create_custom_fields_in_remote_site (self : Settings) : M unit :=
  client ← get_erpnext_site_client self;
  try_except
    (post_api fw client "erpnext.crm.frappe_crm_api.create_custom_fields_for_frappe_crm" [] ;;
     mret tt)
    (fun e =>
       log_error (get_traceback e)
         ("Error while creating custom field in the remote erpnext site: "
          +:+ erpnext_site_url self) ;;
       throw "Error while creating custom field in ERPNext, check error log for more details").

Definition create_custom_fields (self : Settings) : M unit :=
  if is_erpnext_in_the_current_site self then
    call_local fw create_custom_fields_for_frappe_crm
  else
    create_custom_fields_in_remote_site self.

Definition create_crm_form_script (self : Settings) : M unit :=
  found ← exists_form_script "Create Quotation from CRM Deal";
  if negb found then
    let script := get_crm_form_script in
    insert_doc
      [("doctype", Str "CRM Form Script");
       ("name", Str "Create Quotation from CRM Deal");
       ("dt", Str "CRM Deal");
       ("view", Str "Form");
       ("script", Str script);
       ("enabled", Int 1);
       ("is_standard", Int 1)]
  else mret tt.

Definition validate (self : Settings) : M unit :=
  if enabled self then
    validate_if_erpnext_installed self ;;
    add_quotation_to_option self ;;
    create_custom_fields self ;;
    create_crm_form_script self
  else mret tt.

(** *** Functions of the module *)

Definition create_prospect_in_remote_site
    (crm_deal : string) (erpnext_crm_settings : Settings) : M string :=
  try_except
    (client ← get_erpnext_site_client erpnext_crm_settings;
     doc ← get_doc crm_deal;
     let contact_dicts := get_contacts doc in
     post_api fw client "erpnext.crm.frappe_crm_api.create_prospect_against_crm_deal"
       [("organization", Str (organization doc));
        ("lead_name", Str (lead_name doc));
        ("no_of_employees", Str (no_of_employees doc));
        ("deal_owner", Str (deal_owner doc));
        ("crm_deal", Str (name doc));
        ("territory", Str (territory doc));
        ("industry", Str (industry doc));
        ("website", Str (website doc));
        ("annual_revenue", Str (annual_revenue doc));
        ("contacts", Str (json_dumps fw contact_dicts));
        ("erpnext_company", Str (erpnext_company erpnext_crm_settings))])
    (fun e =>
       log_error (get_traceback e)
         ("Error while creating prospect in remote site: "
          +:+ erpnext_site_url erpnext_crm_settings) ;;
       throw (translate fw
         "Error while creating prospect in ERPNext, check error log for more details")).

Definition get_quotation_url (crm_deal organization_arg : string) : M string :=
  erpnext_crm_settings ← get_single;
  (if negb (enabled erpnext_crm_settings)
   then throw (translate fw "ERPNext is not integrated with the CRM")
   else mret tt) ;;
  if is_erpnext_in_the_current_site erpnext_crm_settings then
    let quotation_url := get_url_to_form fw "Quotation" in
    mret (quotation_url +:+ "/new?quotation_to=CRM Deal&crm_deal=" +:+ crm_deal
          +:+ "&party_name=" +:+ crm_deal)
  else
    let site_url := erpnext_site_url erpnext_crm_settings in
    let quotation_url := site_url +:+ "/app/quotation" in
    prospect ← create_prospect_in_remote_site crm_deal erpnext_crm_settings;
    mret (quotation_url +:+ "/new?quotation_to=Prospect&crm_deal=" +:+ crm_deal
          +:+ "&party_name=" +:+ prospect).

Definition create_customer_in_remote_site
    (customer : dict) (erpnext_crm_settings : Settings) : M unit :=
  client ← get_erpnext_site_client erpnext_crm_settings;
  try_except
    (post_api fw client "erpnext.crm.frappe_crm_api.create_customer" customer ;;
     mret tt)
    (fun e =>
       log_error (get_traceback e) "Error while creating customer in remote site" ;;
       throw (translate fw
         "Error while creating customer in ERPNext, check error log for more details")).

Definition create_customer_in_erpnext (doc : Deal) (method : string) : M unit :=
  erpnext_crm_settings ← get_single;
  if negb (enabled erpnext_crm_settings) || negb (String.eqb (status doc) "Won") then
    mret tt
  else
    let contact_dicts := get_contacts doc in
    let customer :=
      [("customer_name", Str (organization doc));
       ("customer_group", Str "All Customer Groups");
       ("customer_type", Str "Company");
       ("territory", Str (territory doc));
       ("default_currency", Str (currency doc));
       ("industry", Str (industry doc));
       ("website", Str (website doc));
       ("crm_deal", Str (name doc));
       ("contacts", Str (json_dumps fw contact_dicts))] in
    if is_erpnext_in_the_current_site erpnext_crm_settings then
      call_local fw (create_customer customer)
    else
      create_customer_in_remote_site customer erpnext_crm_settings.
End ERPNextCRMSettings.

(** ** Requests the module sends, as the statements below name them *)

(** The request of [create_prospect_in_remote_site] for a deal. *)
Definition prospect_request (fw : Framework) (s : Settings) (doc : Deal) : RemoteCall :=
  {| rc_client := {| url := erpnext_site_url s; key := api_key s; secret := api_secret s |};
     rc_method := "erpnext.crm.frappe_crm_api.create_prospect_against_crm_deal";
     rc_params :=
       [("organization", Str (organization doc));
        ("lead_name", Str (lead_name doc));
        ("no_of_employees", Str (no_of_employees doc));
        ("deal_owner", Str (deal_owner doc));
        ("crm_deal", Str (name doc));
        ("territory", Str (territory doc));
        ("industry", Str (industry doc));
        ("website", Str (website doc));
        ("annual_revenue", Str (annual_revenue doc));
        ("contacts", Str (json_dumps fw (get_contacts doc)));
        ("erpnext_company", Str (erpnext_company s))] |}.

(** The request of [create_customer_in_remote_site]. *)
Definition customer_request (s : Settings) (customer : dict) : RemoteCall :=
  {| rc_client := {| url := erpnext_site_url s; key := api_key s; secret := api_secret s |};
     rc_method := "erpnext.crm.frappe_crm_api.create_customer";
     rc_params := customer |}.

(** What one contact row is projected to: the six keys, in the order the
    dict literal lists them. *)
Definition contact_projection (c : ContactRow) : dict :=
  [("contact", Str (contact c));
   ("full_name", Str (full_name c));
   ("email", Str (email c));
   ("mobile_no", Str (mobile_no c));
   ("gender", Str (gender c));
   ("is_primary", Int (is_primary c))].

Definition prospect_error_message : string :=
  "Error while creating prospect in ERPNext, check error log for more details".
Definition customer_error_message : string :=
  "Error while creating customer in ERPNext, check error log for more details".

Definition quotation_filter_name : string := "Quotation-quotation_to-link_filters".
Definition form_script_name : string := "Create Quotation from CRM Deal".

(** The sentence of the specification about the remote branch, read for one
    run: the run makes one prospect-creation request and returns the URL
    built from the site URL, the deal id and the answer to that request. *)
Definition returns_prospect_quotation_url
    (fw : Framework) (crm_deal org : string) (w : World) : Prop :=
  exists (prospect : string) (call : RemoteCall),
    rc_method call = "erpnext.crm.frappe_crm_api.create_prospect_against_crm_deal"
    /\ remote_response fw (remote_calls w) call = Return prospect
    /\ get_quotation_url fw crm_deal org w
       = (Return ((erpnext_site_url (settings w) +:+ "/app/quotation")
                  +:+ "/new?quotation_to=Prospect&crm_deal=" +:+ crm_deal
                  +:+ "&party_name=" +:+ prospect),
          set_remote_calls (fun l => l ++ [call]) w).

(** ** Concrete sites, on which the model is run *)

(** A framework whose remote site answers [answer] to every request and whose
    client constructor raises [init] when there is one. *)
Definition site_framework (answer : outcome string) (init : option exn) : Framework :=
  {| translate := fun s => s;
     get_url_to_form := fun _ => "https://crm.example.com/app/quotation";
     json_dumps := fun l => if Nat.eqb (length l) 0 then "[]" else "[...]";
     client_init := fun _ _ _ => init;
     remote_response := fun _ _ => answer;
     local_response := fun _ _ => None;
     raised_by_import := fun _ _ => false |}.

(** A framework whose remote site raises [e] for the procedure [method] and
    answers every other request. *)
Definition failing_method_framework (method : string) (e : exn) : Framework :=
  {| translate := fun s => s;
     get_url_to_form := fun _ => "https://crm.example.com/app/quotation";
     json_dumps := fun l => if Nat.eqb (length l) 0 then "[]" else "[...]";
     client_init := fun _ _ _ => None;
     remote_response := fun _ c =>
       if String.eqb (rc_method c) method then Raise e else Return "ok";
     local_response := fun _ _ => None;
     raised_by_import := fun _ _ => false |}.

(** A framework on whose site the in-process ERPNext functions raise [e],
    at the import when [at_import], in the call otherwise. *)
Definition local_failing_framework (e : exn) (at_import : bool) : Framework :=
  {| translate := fun s => s;
     get_url_to_form := fun _ => "https://crm.example.com/app/quotation";
     json_dumps := fun l => if Nat.eqb (length l) 0 then "[]" else "[...]";
     client_init := fun _ _ _ => None;
     remote_response := fun _ _ => Return "ok";
     local_response := fun _ _ => Some e;
     raised_by_import := fun _ _ => at_import |}.

Definition site_settings (on colocated : bool) : Settings :=
  {| enabled := on;
     is_erpnext_in_the_current_site := colocated;
     erpnext_site_url := "https://erp.example.com";
     api_key := "0a1b2c";
     api_secret := "d3e4f5";
     erpnext_company := "Acme Inc" |}.

Definition jane : ContactRow :=
  {| contact := "CONT-01"; full_name := "Jane Roe"; email := "jane@acme.test";
     mobile_no := "555-0100"; gender := "Female"; is_primary := 1;
     phone := "555-0199"; idx := 1 |}.

Definition john : ContactRow :=
  {| contact := "CONT-02"; full_name := "John Doe"; email := "john@acme.test";
     mobile_no := "555-0101"; gender := "Male"; is_primary := 0;
     phone := ""; idx := 2 |}.

Definition deal_001 (st : string) : Deal :=
  {| name := "DEAL-001"; organization := "Acme"; lead_name := "Jane Roe";
     no_of_employees := "11-50"; deal_owner := "sales@crm.test";
     territory := "EMEA"; industry := "Retail"; website := "acme.test";
     annual_revenue := "250000.0"; currency := "EUR"; status := st;
     contacts := [jane; john] |}.

Definition crm_site (s : Settings) (apps : list string) : World :=
  {| settings := s;
     installed_apps := apps;
     property_setters := ∅;
     form_scripts := ∅;
     deals := {[ "DEAL-001" := deal_001 "Open" ]};
     local_calls := [];
     remote_calls := [];
     error_log := [] |}.

(** A site where both keyed records are already there; the stored script is
    an older body than [get_crm_form_script]. *)
Definition provisioned_site (s : Settings) : World :=
  set_property_setters
    (insert "Quotation-quotation_to-link_filters" [("value", Str "[]")])
    (set_form_scripts
       (insert "Create Quotation from CRM Deal"
          [("name", Str "Create Quotation from CRM Deal"); ("script", Str "// v0")])
       (crm_site s ["frappe"; "crm"; "erpnext"])).

(** ** More requests and records, as the statements below name them *)

(** The request of [create_custom_fields_in_remote_site]. *)
Definition custom_fields_request (s : Settings) : RemoteCall :=
  {| rc_client := {| url := erpnext_site_url s; key := api_key s; secret := api_secret s |};
     rc_method := "erpnext.crm.frappe_crm_api.create_custom_fields_for_frappe_crm";
     rc_params := [] |}.

(** The customer dict [create_customer_in_erpnext] builds from a deal. *)
Definition customer_payload (fw : Framework) (doc : Deal) : dict :=
  [("customer_name", Str (organization doc));
   ("customer_group", Str "All Customer Groups");
   ("customer_type", Str "Company");
   ("territory", Str (territory doc));
   ("default_currency", Str (currency doc));
   ("industry", Str (industry doc));
   ("website", Str (website doc));
   ("crm_deal", Str (name doc));
   ("contacts", Str (json_dumps fw (get_contacts doc)))].

(** The Property Setter [add_quotation_to_option] asks for. *)
Definition quotation_filter_doc : dict :=
  [("doctype", Str "Property Setter");
   ("doc_type", Str "Quotation");
   ("field_name", Str "quotation_to");
   ("property", Str "link_filters");
   ("value", Str quotation_to_link_filters);
   ("property_type", Str "JSON")].

(** The CRM Form Script [create_crm_form_script] inserts. *)
Definition form_script_doc : dict :=
  [("doctype", Str "CRM Form Script");
   ("name", Str "Create Quotation from CRM Deal");
   ("dt", Str "CRM Deal");
   ("view", Str "Form");
   ("script", Str get_crm_form_script);
   ("enabled", Int 1);
   ("is_standard", Int 1)].

Definition custom_fields_error_message : string :=
  "Error while creating custom field in ERPNext, check error log for more details".
Definition not_integrated_message : string :=
  "ERPNext is not integrated with the CRM".

(** Create-if-absent on a table: a record already under [k] stays. *)
Definition ensure (k : string) (d : dict) (m : gmap string dict) : gmap string dict :=
  match m !! k with
  | Some _ => m
  | None => <[k := d]> m
  end.

(** [after] is [before], or [before] with one element appended. *)
Definition at_most_one_more {A : Type} (before after : list A) : Prop :=
  after = before \/ exists x : A, after = before ++ [x].

(** The keys of a projected contact, in order. *)
Definition projected_keys : list string :=
  ["contact"; "full_name"; "email"; "mobile_no"; "gender"; "is_primary"].

(** Two rows agree on what [get_contacts] reads. *)
Definition same_projected_fields (c1 c2 : ContactRow) : Prop :=
  contact c1 = contact c2 /\ full_name c1 = full_name c2 /\ email c1 = email c2
  /\ mobile_no c1 = mobile_no c2 /\ gender c1 = gender c2
  /\ is_primary c1 = is_primary c2.

(** * Properties *)

(** Unfolds one run of the monad down to pairs. *)
Ltac run :=
  unfold log_error, get_single, get_installed_apps, exists_property_setter,
    exists_form_script, make_property_setter, FrappeClient, post_api, call_local,
    get_doc, throw, result, world_after in *;
  unfold mbind, M_bind, mret, M_ret, gets, modify, raise, try_except in *;
  cbn beta iota in *; cbn [fst snd] in *.

(** Unfolds the functions of the module down to the framework primitives. *)
Ltac unfold_module :=
  unfold validate, validate_if_erpnext_installed, add_quotation_to_option,
    create_custom_fields, create_custom_fields_in_remote_site,
    create_crm_form_script, get_quotation_url, create_prospect_in_remote_site,
    create_customer_in_erpnext, create_customer_in_remote_site,
    get_erpnext_site_client, insert_doc in *.

(** Closes a conjunction of frame facts once a run has been reduced. *)
Ltac frame_facts :=
  repeat match goal with
  | |- _ /\ _ => split
  end;
  first [ reflexivity
        | by left
        | by (right; eexists)
        | by (right; split; [eassumption | reflexivity])
        | done ].


(** ** Contact projection *)

Lemma get_contacts_loop (rows : list ContactRow) (acc : list dict) :
  fold_left (fun acc c => acc ++ [contact_projection c]) rows acc
  = acc ++ map contact_projection rows.
Proof.
  revert acc. induction rows as [|c rows IH]; intros acc; simpl.
  - by rewrite app_nil_r.
  - rewrite IH. by rewrite <- app_assoc.
Qed.

(** C8. [get_contacts] returns, for every deal, the list of the projections
    of the deal's contact rows: same length, same order, the i-th dict being
    the six-key projection of the i-th row; it reads the deal and writes
    nothing (running it leaves the world as it was). *)
Theorem get_contacts_is_ordered_projection (doc : Deal) :
  get_contacts doc = map contact_projection (contacts doc)
  /\ length (get_contacts doc) = length (contacts doc)
  /\ (forall i : nat, get_contacts doc !! i = contact_projection <$> (contacts doc !! i))
  /\ (forall w : World,
        (mret (get_contacts doc) : M (list dict)) w
        = (Return (map contact_projection (contacts doc)), w)).
Proof.
  assert (E : get_contacts doc = map contact_projection (contacts doc)).
  { unfold get_contacts. apply (get_contacts_loop (contacts doc) []). }
  rewrite E. repeat split.
  - apply length_map.
  - intros i. apply list_lookup_fmap.
Qed.

(** ** Quotation URL *)

(** C9. The URL returned by [get_quotation_url], what it raises and the world
    it leaves (remote calls and error log included) do not depend on the
    [organization] argument. *)
Theorem get_quotation_url_ignores_organization
    (fw : Framework) (crm_deal org1 org2 : string) (w : World) :
  get_quotation_url fw crm_deal org1 w = get_quotation_url fw crm_deal org2 w.
Proof. reflexivity. Qed.

(** C2. With the integration enabled and ERPNext in the current site,
    [get_quotation_url] returns the form URL of Quotation followed by
    [/new?quotation_to=CRM Deal&crm_deal=<id>&party_name=<id>], the party
    name being the deal id, and leaves the world unchanged. *)
Theorem get_quotation_url_colocated
    (fw : Framework) (crm_deal org : string) (w : World) :
  enabled (settings w) = true ->
  is_erpnext_in_the_current_site (settings w) = true ->
  get_quotation_url fw crm_deal org w
  = (Return (get_url_to_form fw "Quotation" +:+ "/new?"
             +:+ "quotation_to=CRM Deal&crm_deal=" +:+ crm_deal
             +:+ "&party_name=" +:+ crm_deal), w).
Proof.
  intros Hon Hloc. unfold get_quotation_url. run.
  rewrite Hon, Hloc. reflexivity.
Qed.

Lemma get_quotation_url_colocated_witness :
  get_quotation_url (site_framework (Return "PROSPECT-0001") None) "DEAL-001" "Acme"
    (crm_site (site_settings true true) ["frappe"; "crm"; "erpnext"])
  = (Return "https://crm.example.com/app/quotation/new?quotation_to=CRM Deal&crm_deal=DEAL-001&party_name=DEAL-001",
     crm_site (site_settings true true) ["frappe"; "crm"; "erpnext"]).
Proof.
  exact (get_quotation_url_colocated (site_framework (Return "PROSPECT-0001") None)
           "DEAL-001" "Acme"
           (crm_site (site_settings true true) ["frappe"; "crm"; "erpnext"])
           eq_refl eq_refl).
Defined.

(** C1, as stated, fails: when the remote site refuses the request, the run
    has made its one request and then raises the generic error, and no URL
    is returned; for a deal id that names no deal, no request is made at
    all. *)
Lemma get_quotation_url_remote_refused :
  let fw := site_framework (Raise (Exception "requests.exceptions.ConnectionError: refused")) None in
  let up := site_framework (Return "PROSPECT-0001") None in
  let w := crm_site (site_settings true false) ["frappe"; "crm"] in
  enabled (settings w) = true
  /\ is_erpnext_in_the_current_site (settings w) = false
  /\ result (get_quotation_url fw "DEAL-001" "Acme" w)
     = Raise (ValidationError prospect_error_message)
  /\ length (remote_calls (world_after (get_quotation_url fw "DEAL-001" "Acme" w))) = 1
  /\ ~ returns_prospect_quotation_url fw "DEAL-001" "Acme" w
  /\ result (get_quotation_url up "DEAL-404" "Acme" w)
     = Raise (ValidationError prospect_error_message)
  /\ remote_calls (world_after (get_quotation_url up "DEAL-404" "Acme" w)) = []
  /\ ~ returns_prospect_quotation_url up "DEAL-404" "Acme" w.
Proof.
  cbv zeta. repeat split; try reflexivity.
  - intros (prospect & call & _ & _ & H).
    apply (f_equal fst) in H. vm_compute in H. discriminate H.
  - intros (prospect & call & _ & _ & H).
    apply (f_equal fst) in H. vm_compute in H. discriminate H.
Qed.

(** C1, amended. With the integration enabled and ERPNext on a remote site,
    when the deal exists, the client is constructed and the remote procedure
    answers [prospect], [get_quotation_url] makes exactly one remote call,
    the prospect-creation request for that deal, and returns
    [<site url>/app/quotation/new?quotation_to=Prospect&crm_deal=<id>&party_name=<prospect>]. *)
Theorem get_quotation_url_remote
    (fw : Framework) (crm_deal org : string) (w : World) (doc : Deal) (prospect : string) :
  enabled (settings w) = true ->
  is_erpnext_in_the_current_site (settings w) = false ->
  deals w !! crm_deal = Some doc ->
  client_init fw (erpnext_site_url (settings w)) (api_key (settings w))
    (api_secret (settings w)) = None ->
  remote_response fw (remote_calls w) (prospect_request fw (settings w) doc) = Return prospect ->
  get_quotation_url fw crm_deal org w
  = (Return ((erpnext_site_url (settings w) +:+ "/app/quotation")
             +:+ "/new?quotation_to=Prospect&crm_deal=" +:+ crm_deal
             +:+ "&party_name=" +:+ prospect),
     set_remote_calls (fun l => l ++ [prospect_request fw (settings w) doc]) w)
  /\ rc_method (prospect_request fw (settings w) doc)
     = "erpnext.crm.frappe_crm_api.create_prospect_against_crm_deal"
  /\ dict_get "crm_deal" (rc_params (prospect_request fw (settings w) doc)) = Some (Str (name doc)).
Proof.
  intros Hon Hloc Hdeal Hinit Hanswer.
  repeat split.
  unfold get_quotation_url, create_prospect_in_remote_site, get_erpnext_site_client.
  run. rewrite Hon, Hloc. cbn. rewrite Hinit, Hdeal.
  unfold prospect_request in Hanswer. by rewrite Hanswer.
Qed.

Lemma get_quotation_url_remote_witness :
  get_quotation_url (site_framework (Return "PROSPECT-0001") None) "DEAL-001" "Acme"
    (crm_site (site_settings true false) ["frappe"; "crm"])
  = (Return "https://erp.example.com/app/quotation/new?quotation_to=Prospect&crm_deal=DEAL-001&party_name=PROSPECT-0001",
     set_remote_calls
       (fun l => l ++ [prospect_request (site_framework (Return "PROSPECT-0001") None)
                         (site_settings true false) (deal_001 "Open")])
       (crm_site (site_settings true false) ["frappe"; "crm"])).
Proof.
  exact (proj1 (get_quotation_url_remote (site_framework (Return "PROSPECT-0001") None)
           "DEAL-001" "Acme" (crm_site (site_settings true false) ["frappe"; "crm"])
           (deal_001 "Open") "PROSPECT-0001" eq_refl eq_refl eq_refl eq_refl eq_refl)).
Defined.

(** ** Customer creation *)

(** C3. [create_customer_in_erpnext] does nothing (no local call, no remote
    call, no log entry: the world is the one it started from) whenever the
    integration is disabled or the deal's status is not the string "Won";
    "Open", "Lost" and lowercase "won" are such statuses. *)
Theorem create_customer_in_erpnext_only_when_won
    (fw : Framework) (doc : Deal) (method : string) (w : World) :
  enabled (settings w) = false \/ status doc <> "Won" ->
  create_customer_in_erpnext fw doc method w = (Return tt, w)
  /\ (forall doc' : Deal,
        status doc' ∈ ["Open"; "Lost"; "won"] ->
        create_customer_in_erpnext fw doc' method w = (Return tt, w)).
Proof.
  assert (G : forall d : Deal,
            enabled (settings w) = false \/ status d <> "Won" ->
            create_customer_in_erpnext fw d method w = (Return tt, w)).
  { intros d H. unfold create_customer_in_erpnext. run.
    destruct H as [Hoff | Hstatus].
    - by rewrite Hoff.
    - apply String.eqb_neq in Hstatus. rewrite Hstatus.
      by rewrite orb_true_r. }
  intros H. split; [by apply G |].
  intros doc' Hin. apply G. right.
  rewrite !elem_of_cons, elem_of_nil in Hin.
  destruct Hin as [-> | [-> | [-> | []]]]; discriminate.
Qed.

Lemma create_customer_in_erpnext_only_when_won_witness :
  create_customer_in_erpnext (site_framework (Return "CUST-0001") None)
    (deal_001 "won") "on_update" (crm_site (site_settings true false) ["frappe"; "crm"])
  = (Return tt, crm_site (site_settings true false) ["frappe"; "crm"]).
Proof.
  refine (proj1 (create_customer_in_erpnext_only_when_won
           (site_framework (Return "CUST-0001") None) (deal_001 "won") "on_update"
           (crm_site (site_settings true false) ["frappe"; "crm"]) _)).
  right. simpl. discriminate.
Defined.

(** ** Validation of the settings *)

(** C4. With [enabled] false, validating the settings and reacting to a deal
    update both return at once and leave the world as it was: no property
    setter, no custom-field call, no form script, no remote or local call. *)
Theorem disabled_integration_does_nothing
    (fw : Framework) (self : Settings) (doc : Deal) (method : string) (w : World) :
  enabled self = false ->
  validate fw self w = (Return tt, w)
  /\ (forall w' : World, settings w' = self ->
        create_customer_in_erpnext fw doc method w' = (Return tt, w')).
Proof.
  intros Hoff. split.
  - unfold validate. by rewrite Hoff.
  - intros w' Hw'. unfold create_customer_in_erpnext. run.
    by rewrite Hw', Hoff.
Qed.

Lemma disabled_integration_does_nothing_witness :
  validate (site_framework (Return "ok") None) (site_settings false false)
    (crm_site (site_settings false false) ["frappe"; "crm"])
  = (Return tt, crm_site (site_settings false false) ["frappe"; "crm"])
  /\ create_customer_in_erpnext (site_framework (Return "ok") None) (deal_001 "Won") "on_update"
       (crm_site (site_settings false false) ["frappe"; "crm"])
     = (Return tt, crm_site (site_settings false false) ["frappe"; "crm"]).
Proof.
  destruct (disabled_integration_does_nothing (site_framework (Return "ok") None)
              (site_settings false false) (deal_001 "Won") "on_update"
              (crm_site (site_settings false false) ["frappe"; "crm"]) eq_refl)
    as [Hvalidate Hcustomer].
  split; [exact Hvalidate |].
  exact (Hcustomer (crm_site (site_settings false false) ["frappe"; "crm"]) eq_refl).
Defined.

(** C5. With the integration enabled and ERPNext declared to be in the
    current site, when "erpnext" is not among the installed apps [validate]
    raises the (translated) message "ERPNext is not installed in the current
    site" and none of the later steps runs: the world is unchanged. *)
Theorem validate_fails_when_erpnext_not_installed
    (fw : Framework) (self : Settings) (w : World) :
  enabled self = true ->
  is_erpnext_in_the_current_site self = true ->
  "erpnext" ∉ installed_apps w ->
  validate fw self w
  = (Raise (ValidationError (translate fw "ERPNext is not installed in the current site")), w).
Proof.
  intros Hon Hloc Hmissing.
  unfold validate, validate_if_erpnext_installed. rewrite Hon, Hloc. run.
  by rewrite bool_decide_eq_false_2.
Qed.

Lemma validate_fails_when_erpnext_not_installed_witness :
  validate (site_framework (Return "ok") None) (site_settings true true)
    (crm_site (site_settings true true) ["frappe"; "crm"])
  = (Raise (ValidationError "ERPNext is not installed in the current site"),
     crm_site (site_settings true true) ["frappe"; "crm"]).
Proof.
  refine (validate_fails_when_erpnext_not_installed (site_framework (Return "ok") None)
            (site_settings true true)
            (crm_site (site_settings true true) ["frappe"; "crm"]) eq_refl eq_refl _).
  simpl. compute_done.
Defined.

(** ** Create-if-absent provisioning *)












(** ** Failures of the remote site *)

Lemma traceback_contains_exception_text (e : exn) :
  contains (get_traceback e) (exn_text e).
Proof.
  exists ("Traceback (most recent call last):" +:+ nl), nl.
  reflexivity.
Qed.

(** C7. Whenever the remote procedure raises, in prospect creation or in
    customer creation, each on its own, what is raised to the user is the
    fixed (translated) message of the function.  The message is the same
    whatever the exception was; this is how "never contains the underlying
    exception text" is read: nothing of the exception enters the message.
    The traceback of the exception, which carries its text, goes to the
    error log and nowhere else: the world after differs from the one before
    by the recorded request and that one log entry. *)
Theorem remote_failure_is_generic_and_logged
    (fw : Framework) (s : Settings) (w : World) :
  client_init fw (erpnext_site_url s) (api_key s) (api_secret s) = None ->
  (forall (crm_deal : string) (doc : Deal) (e : exn),
     deals w !! crm_deal = Some doc ->
     remote_response fw (remote_calls w) (prospect_request fw s doc) = Raise e ->
     create_prospect_in_remote_site fw crm_deal s w
     = (Raise (ValidationError (translate fw prospect_error_message)),
        set_error_log
          (fun l => l ++ [{| log_message := get_traceback e;
                             log_title := "Error while creating prospect in remote site: "
                                          +:+ erpnext_site_url s |}])
          (set_remote_calls (fun l => l ++ [prospect_request fw s doc]) w))
     /\ contains (get_traceback e) (exn_text e))
  /\ (forall (customer : dict) (e : exn),
        remote_response fw (remote_calls w) (customer_request s customer) = Raise e ->
        create_customer_in_remote_site fw customer s w
        = (Raise (ValidationError (translate fw customer_error_message)),
           set_error_log
             (fun l => l ++ [{| log_message := get_traceback e;
                                log_title := "Error while creating customer in remote site" |}])
             (set_remote_calls (fun l => l ++ [customer_request s customer]) w))
        /\ contains (get_traceback e) (exn_text e)).
Proof.
  intros Hinit. split.
  - intros crm_deal doc e Hdeal Hp. unfold prospect_request in Hp.
    split; [| apply traceback_contains_exception_text].
    unfold create_prospect_in_remote_site, get_erpnext_site_client. run.
    by rewrite Hinit, Hdeal, Hp.
  - intros customer e Hc. unfold customer_request in Hc.
    split; [| apply traceback_contains_exception_text].
    unfold create_customer_in_remote_site, get_erpnext_site_client. run.
    by rewrite Hinit, Hc.
Qed.

Lemma remote_failure_is_generic_and_logged_witness :
  let refused := Exception "requests.exceptions.ConnectionError: refused" in
  let prospect_down :=
    failing_method_framework "erpnext.crm.frappe_crm_api.create_prospect_against_crm_deal" refused in
  let customer_down :=
    failing_method_framework "erpnext.crm.frappe_crm_api.create_customer" refused in
  let s := site_settings true false in
  let w := crm_site s ["frappe"; "crm"] in
  (result (create_prospect_in_remote_site prospect_down "DEAL-001" s w)
   = Raise (ValidationError "Error while creating prospect in ERPNext, check error log for more details")
   /\ map log_title (error_log (world_after (create_prospect_in_remote_site prospect_down "DEAL-001" s w)))
      = ["Error while creating prospect in remote site: https://erp.example.com"]
   /\ result (create_customer_in_remote_site prospect_down [("customer_name", Str "Acme")] s w)
      = Return tt)
  /\ (result (create_customer_in_remote_site customer_down [("customer_name", Str "Acme")] s w)
      = Raise (ValidationError "Error while creating customer in ERPNext, check error log for more details")
      /\ map log_title (error_log (world_after
            (create_customer_in_remote_site customer_down [("customer_name", Str "Acme")] s w)))
         = ["Error while creating customer in remote site"]
      /\ result (create_prospect_in_remote_site customer_down "DEAL-001" s w)
         = Return "ok").
Proof.
  cbv zeta. split.
  - destruct (remote_failure_is_generic_and_logged
                (failing_method_framework
                   "erpnext.crm.frappe_crm_api.create_prospect_against_crm_deal"
                   (Exception "requests.exceptions.ConnectionError: refused"))
                (site_settings true false)
                (crm_site (site_settings true false) ["frappe"; "crm"]) eq_refl)
      as [Hprospect _].
    destruct (Hprospect "DEAL-001" (deal_001 "Open")
                (Exception "requests.exceptions.ConnectionError: refused")
                eq_refl eq_refl) as [Hp _].
    rewrite Hp. repeat split.
  - destruct (remote_failure_is_generic_and_logged
                (failing_method_framework "erpnext.crm.frappe_crm_api.create_customer"
                   (Exception "requests.exceptions.ConnectionError: refused"))
                (site_settings true false)
                (crm_site (site_settings true false) ["frappe"; "crm"]) eq_refl)
      as [_ Hcustomer].
    destruct (Hcustomer [("customer_name", Str "Acme")]
                (Exception "requests.exceptions.ConnectionError: refused") eq_refl)
      as [Hc _].
    rewrite Hc. repeat split.
Defined.




(** * Further properties of the module *)

(** ** [get_quotation_url] *)

(** X1. With the integration disabled, [get_quotation_url] raises the
    (translated) message "ERPNext is not integrated with the CRM" before it
    reads the deal or contacts the remote site, whichever site ERPNext is
    declared to be in: the world is unchanged. *)
Theorem get_quotation_url_disabled
    (fw : Framework) (crm_deal org : string) (w : World) :
  enabled (settings w) = false ->
  get_quotation_url fw crm_deal org w
  = (Raise (ValidationError (translate fw not_integrated_message)), w).
Proof.
  intros Hoff. unfold_module. run. by rewrite Hoff.
Qed.

Lemma get_quotation_url_disabled_witness :
  get_quotation_url (site_framework (Return "PROSPECT-0001") None) "DEAL-001" "Acme"
    (crm_site (site_settings false false) ["frappe"; "crm"])
  = (Raise (ValidationError "ERPNext is not integrated with the CRM"),
     crm_site (site_settings false false) ["frappe"; "crm"]).
Proof.
  exact (get_quotation_url_disabled (site_framework (Return "PROSPECT-0001") None)
           "DEAL-001" "Acme" (crm_site (site_settings false false) ["frappe"; "crm"])
           eq_refl).
Defined.

(** X2. Whenever [get_quotation_url] returns a URL, the integration is enabled
    and either ERPNext is in the current site, the URL is the local one and
    nothing happened, or ERPNext is remote, the deal exists, exactly one
    request was made, the prospect request for that deal, and the URL ends
    with the answer to it. *)
Theorem get_quotation_url_returned
    (fw : Framework) (crm_deal org : string) (w : World) (u : string) :
  result (get_quotation_url fw crm_deal org w) = Return u ->
  enabled (settings w) = true
  /\ ((is_erpnext_in_the_current_site (settings w) = true
       /\ u = get_url_to_form fw "Quotation" +:+ "/new?quotation_to=CRM Deal&crm_deal="
              +:+ crm_deal +:+ "&party_name=" +:+ crm_deal
       /\ world_after (get_quotation_url fw crm_deal org w) = w)
      \/ (is_erpnext_in_the_current_site (settings w) = false
          /\ exists (doc : Deal) (prospect : string),
               deals w !! crm_deal = Some doc
               /\ remote_response fw (remote_calls w) (prospect_request fw (settings w) doc)
                  = Return prospect
               /\ u = (erpnext_site_url (settings w) +:+ "/app/quotation")
                      +:+ "/new?quotation_to=Prospect&crm_deal=" +:+ crm_deal
                      +:+ "&party_name=" +:+ prospect
               /\ world_after (get_quotation_url fw crm_deal org w)
                  = set_remote_calls
                      (fun l => l ++ [prospect_request fw (settings w) doc]) w)).
Proof.
  unfold_module. run. unfold prospect_request.
  destruct (enabled (settings w)); cbn; [| done].
  destruct (is_erpnext_in_the_current_site (settings w)); cbn.
  - intros [= <-]. split; [done |]. by left.
  - destruct (client_init fw _ _ _); cbn; [done |].
    destruct (deals w !! crm_deal) as [doc|]; cbn; [| done].
    destruct (remote_response fw _ _) as [prospect|e] eqn:Hanswer; cbn; [| done].
    intros [= <-]. split; [done |]. right. split; [done |].
    by exists doc, prospect.
Qed.

Lemma get_quotation_url_returned_witness :
  enabled (site_settings true false) = true
  /\ exists doc : Deal,
       ({[ "DEAL-001" := deal_001 "Open" ]} : gmap string Deal) !! "DEAL-001" = Some doc.
Proof.
  destruct (get_quotation_url_returned (site_framework (Return "PROSPECT-0001") None)
              "DEAL-001" "Acme" (crm_site (site_settings true false) ["frappe"; "crm"])
              "https://erp.example.com/app/quotation/new?quotation_to=Prospect&crm_deal=DEAL-001&party_name=PROSPECT-0001"
              eq_refl)
    as [Hon [(Hloc & _) | (_ & doc & _ & Hdeal & _)]].
  - discriminate Hloc.
  - split; [exact Hon | by exists doc].
Defined.

(** X3. [get_quotation_url] writes nothing of its own: settings, installed apps,
    deals, property setters, form scripts and the in-process calls are as
    before, whatever it was given and however it ended; at most one request
    has gone to the remote site and at most one entry to the error log. *)
Theorem get_quotation_url_footprint
    (fw : Framework) (crm_deal org : string) (w : World) :
  let w' := world_after (get_quotation_url fw crm_deal org w) in
  settings w' = settings w
  /\ installed_apps w' = installed_apps w
  /\ deals w' = deals w
  /\ property_setters w' = property_setters w
  /\ form_scripts w' = form_scripts w
  /\ local_calls w' = local_calls w
  /\ at_most_one_more (remote_calls w) (remote_calls w')
  /\ at_most_one_more (error_log w) (error_log w').
Proof.
  unfold at_most_one_more. unfold_module. run.
  destruct (enabled (settings w)); cbn; [| by repeat split; try left].
  destruct (is_erpnext_in_the_current_site (settings w)); cbn;
    [by repeat split; try left |].
  destruct (client_init fw _ _ _); cbn;
    [repeat split; try (by left); right; by eexists |].
  destruct (deals w !! crm_deal) as [doc|]; cbn;
    [| repeat split; try (by left); right; by eexists].
  destruct (remote_response fw _ _) as [prospect|e]; cbn.
  - repeat split; try (by left); right; by eexists.
  - repeat split; right; by eexists.
Qed.

(** X4. [get_quotation_url] never lets a raw exception through: what it raises
    is one of its two user-facing messages.  With the first nothing has
    happened; with the second the cause has been written to the error log
    under a title that names the remote site. *)
Theorem get_quotation_url_raises_only_user_messages
    (fw : Framework) (crm_deal org : string) (w : World) (e : exn) :
  result (get_quotation_url fw crm_deal org w) = Raise e ->
  (e = ValidationError (translate fw not_integrated_message)
   /\ world_after (get_quotation_url fw crm_deal org w) = w)
  \/ (e = ValidationError (translate fw prospect_error_message)
      /\ exists cause : exn,
           error_log (world_after (get_quotation_url fw crm_deal org w))
           = error_log w
             ++ [{| log_message := get_traceback cause;
                    log_title := "Error while creating prospect in remote site: "
                                 +:+ erpnext_site_url (settings w) |}]).
Proof.
  unfold_module. run.
  destruct (enabled (settings w)); cbn; [| intros [= <-]; by left].
  destruct (is_erpnext_in_the_current_site (settings w)); cbn; [done |].
  destruct (client_init fw _ _ _) as [e0|]; cbn;
    [intros [= <-]; right; split; [done | by exists e0] |].
  destruct (deals w !! crm_deal) as [doc|]; cbn;
    [| intros [= <-]; right; split; [done | by eexists]].
  destruct (remote_response fw _ _) as [prospect|e0]; cbn; [done |].
  intros [= <-]. right. split; [done | by exists e0].
Qed.

Lemma get_quotation_url_raises_only_user_messages_witness :
  exists cause : exn,
    error_log (world_after
      (get_quotation_url
         (site_framework (Raise (Exception "requests.exceptions.ConnectionError: refused")) None)
         "DEAL-001" "Acme" (crm_site (site_settings true false) ["frappe"; "crm"])))
    = [{| log_message := get_traceback cause;
          log_title := "Error while creating prospect in remote site: https://erp.example.com" |}].
Proof.
  destruct (get_quotation_url_raises_only_user_messages
              (site_framework (Raise (Exception "requests.exceptions.ConnectionError: refused")) None)
              "DEAL-001" "Acme" (crm_site (site_settings true false) ["frappe"; "crm"])
              (ValidationError prospect_error_message) eq_refl)
    as [(Hmsg & _) | (_ & cause & Hlog)].
  - discriminate Hmsg.
  - exists cause. exact Hlog.
Defined.

(** ** [create_prospect_in_remote_site] *)

(** X5. For a deal id that names no deal, [create_prospect_in_remote_site] makes
    no request: the lookup fails inside the [try], the failure is logged and
    the generic message is raised. *)
Theorem create_prospect_in_remote_site_missing_deal
    (fw : Framework) (crm_deal : string) (s : Settings) (w : World) :
  client_init fw (erpnext_site_url s) (api_key s) (api_secret s) = None ->
  deals w !! crm_deal = None ->
  result (create_prospect_in_remote_site fw crm_deal s w)
  = Raise (ValidationError (translate fw prospect_error_message))
  /\ remote_calls (world_after (create_prospect_in_remote_site fw crm_deal s w))
     = remote_calls w
  /\ exists cause : exn,
       world_after (create_prospect_in_remote_site fw crm_deal s w)
       = set_error_log
           (fun l => l ++ [{| log_message := get_traceback cause;
                              log_title := "Error while creating prospect in remote site: "
                                           +:+ erpnext_site_url s |}])
           w.
Proof.
  intros Hinit Hdeal. unfold_module. run. rewrite Hinit, Hdeal. cbn.
  repeat split. by eexists.
Qed.

Lemma create_prospect_in_remote_site_missing_deal_witness :
  remote_calls (world_after
    (create_prospect_in_remote_site (site_framework (Return "PROSPECT-0001") None)
       "DEAL-404" (site_settings true false)
       (crm_site (site_settings true false) ["frappe"; "crm"])))
  = [].
Proof.
  exact (proj1 (proj2 (create_prospect_in_remote_site_missing_deal
           (site_framework (Return "PROSPECT-0001") None) "DEAL-404"
           (site_settings true false)
           (crm_site (site_settings true false) ["frappe"; "crm"])
           eq_refl eq_refl))).
Defined.

(** ** [validate] *)

(** X6. [validate] with ERPNext in the current site and installed: when the
    in-process provisioning of the custom fields returns, [validate] returns
    and the world is the one before with the quotation filter ensured, that
    one in-process call recorded, and the form script ensured, in this
    order; no request goes to a remote site. *)
Theorem validate_colocated
    (fw : Framework) (self : Settings) (w : World) :
  enabled self = true ->
  is_erpnext_in_the_current_site self = true ->
  "erpnext" ∈ installed_apps w ->
  local_response fw (local_calls w) create_custom_fields_for_frappe_crm = None ->
  validate fw self w
  = (Return tt,
     set_form_scripts (ensure form_script_name form_script_doc)
       (set_local_calls (fun l => l ++ [create_custom_fields_for_frappe_crm])
          (set_property_setters (ensure quotation_filter_name quotation_filter_doc) w))).
Proof.
  intros Hon Hloc Happs Hlocal.
  unfold ensure, form_script_name, quotation_filter_name.
  unfold_module. rewrite Hon, Hloc. run.
  rewrite (bool_decide_eq_true_2 _ Happs). cbn.
  destruct (property_setters w !! _) eqn:Hps; cbn; rewrite Hlocal; cbn;
    destruct (form_scripts w !! _) eqn:Hfs; cbn; rewrite ?Hfs;
    unfold set_form_scripts, set_local_calls, set_property_setters; cbn;
    by rewrite ?Hps, ?Hfs.
Qed.

Lemma validate_colocated_witness :
  let fw := site_framework (Return "ok") None in
  let self := site_settings true true in
  let w := crm_site self ["frappe"; "crm"; "erpnext"] in
  result (validate fw self w) = Return tt
  /\ property_setters (world_after (validate fw self w)) !! quotation_filter_name
     = Some quotation_filter_doc
  /\ form_scripts (world_after (validate fw self w)) !! form_script_name
     = Some form_script_doc
  /\ local_calls (world_after (validate fw self w)) = [create_custom_fields_for_frappe_crm]
  /\ remote_calls (world_after (validate fw self w)) = [].
Proof.
  cbv zeta.
  assert (Hin : "erpnext" ∈ ["frappe"; "crm"; "erpnext"]) by compute_done.
  rewrite (validate_colocated (site_framework (Return "ok") None) (site_settings true true)
             (crm_site (site_settings true true) ["frappe"; "crm"; "erpnext"])
             eq_refl eq_refl Hin eq_refl).
  repeat split.
Defined.

(** X7. [validate] with ERPNext on a remote site: when the client is constructed
    and the remote procedure answers, [validate] returns and the world is
    the one before with that one request recorded and the form script
    ensured.  The installed apps are not looked at and no property setter is
    made. *)
Theorem validate_remote
    (fw : Framework) (self : Settings) (w : World) (answer : string) :
  enabled self = true ->
  is_erpnext_in_the_current_site self = false ->
  client_init fw (erpnext_site_url self) (api_key self) (api_secret self) = None ->
  remote_response fw (remote_calls w) (custom_fields_request self) = Return answer ->
  validate fw self w
  = (Return tt,
     set_form_scripts (ensure form_script_name form_script_doc)
       (set_remote_calls (fun l => l ++ [custom_fields_request self]) w)).
Proof.
  intros Hon Hloc Hinit Hanswer.
  unfold ensure, form_script_name. unfold custom_fields_request in *.
  unfold_module. rewrite Hon, Hloc. run. rewrite Hinit. cbn. rewrite Hanswer. cbn.
  destruct (form_scripts w !! _) eqn:Hfs; cbn; rewrite ?Hfs;
    unfold set_form_scripts, set_remote_calls; cbn;
    by rewrite ?Hfs.
Qed.

Lemma validate_remote_witness :
  let fw := site_framework (Return "ok") None in
  let self := site_settings true false in
  let w := crm_site self ["frappe"; "crm"] in
  result (validate fw self w) = Return tt
  /\ remote_calls (world_after (validate fw self w)) = [custom_fields_request self]
  /\ form_scripts (world_after (validate fw self w)) !! form_script_name
     = Some form_script_doc
  /\ property_setters (world_after (validate fw self w)) = ∅.
Proof.
  cbv zeta.
  rewrite (validate_remote (site_framework (Return "ok") None) (site_settings true false)
             (crm_site (site_settings true false) ["frappe"; "crm"]) "ok"
             eq_refl eq_refl eq_refl eq_refl).
  repeat split.
Defined.

(** X8. [validate] with ERPNext on a remote site that refuses the request: the
    traceback is logged under a title naming the site, the message raised is
    the custom-field one, which, unlike the other messages of the module, is
    not passed through the translation, and the form script step is not
    reached. *)
Theorem validate_remote_refused
    (fw : Framework) (self : Settings) (w : World) (e : exn) :
  enabled self = true ->
  is_erpnext_in_the_current_site self = false ->
  client_init fw (erpnext_site_url self) (api_key self) (api_secret self) = None ->
  remote_response fw (remote_calls w) (custom_fields_request self) = Raise e ->
  validate fw self w
  = (Raise (ValidationError custom_fields_error_message),
     set_error_log
       (fun l => l ++ [{| log_message := get_traceback e;
                          log_title := "Error while creating custom field in the remote erpnext site: "
                                       +:+ erpnext_site_url self |}])
       (set_remote_calls (fun l => l ++ [custom_fields_request self]) w)).
Proof.
  intros Hon Hloc Hinit Hanswer. unfold custom_fields_request in *.
  unfold_module. rewrite Hon, Hloc. run. rewrite Hinit. cbn. by rewrite Hanswer.
Qed.

Lemma validate_remote_refused_witness :
  let fw := site_framework (Raise (Exception "requests.exceptions.ConnectionError: refused")) None in
  let self := site_settings true false in
  let w := crm_site self ["frappe"; "crm"] in
  result (validate fw self w)
  = Raise (ValidationError "Error while creating custom field in ERPNext, check error log for more details")
  /\ form_scripts (world_after (validate fw self w)) = ∅.
Proof.
  cbv zeta.
  rewrite (validate_remote_refused
             (site_framework (Raise (Exception "requests.exceptions.ConnectionError: refused")) None)
             (site_settings true false)
             (crm_site (site_settings true false) ["frappe"; "crm"])
             (Exception "requests.exceptions.ConnectionError: refused")
             eq_refl eq_refl eq_refl eq_refl).
  repeat split.
Defined.

(** X9. [validate] with ERPNext on a remote site, when constructing the client
    raises: the client is built before the [try] of
    [create_custom_fields_in_remote_site], so the exception leaves
    [validate] as it is, unlogged, and nothing has been done. *)
Theorem validate_client_construction_fails
    (fw : Framework) (self : Settings) (w : World) (e : exn) :
  enabled self = true ->
  is_erpnext_in_the_current_site self = false ->
  client_init fw (erpnext_site_url self) (api_key self) (api_secret self) = Some e ->
  validate fw self w = (Raise e, w).
Proof.
  intros Hon Hloc Hinit.
  unfold_module. rewrite Hon, Hloc. run. by rewrite Hinit.
Qed.

Lemma validate_client_construction_fails_witness :
  validate
    (site_framework (Return "ok")
       (Some (Exception "requests.exceptions.InvalidSchema: no connection adapters")))
    (site_settings true false) (crm_site (site_settings true false) ["frappe"; "crm"])
  = (Raise (Exception "requests.exceptions.InvalidSchema: no connection adapters"),
     crm_site (site_settings true false) ["frappe"; "crm"]).
Proof.
  exact (validate_client_construction_fails
           (site_framework (Return "ok")
              (Some (Exception "requests.exceptions.InvalidSchema: no connection adapters")))
           (site_settings true false) (crm_site (site_settings true false) ["frappe"; "crm"])
           (Exception "requests.exceptions.InvalidSchema: no connection adapters")
           eq_refl eq_refl eq_refl).
Defined.

(** X10. Whatever the settings and the site, and however it ends, [validate]
    leaves settings, installed apps and deals alone; each of the two tables
    is either as before or has gained its one keyed record where there was
    none; and at most one provisioning call was made, in process or to the
    remote site, never both, with at most one entry in the error log. *)
Theorem validate_footprint (fw : Framework) (self : Settings) (w : World) :
  let w' := world_after (validate fw self w) in
  settings w' = settings w
  /\ installed_apps w' = installed_apps w
  /\ deals w' = deals w
  /\ (property_setters w' = property_setters w
      \/ (property_setters w !! quotation_filter_name = None
          /\ property_setters w'
             = <[quotation_filter_name := quotation_filter_doc]> (property_setters w)))
  /\ (form_scripts w' = form_scripts w
      \/ (form_scripts w !! form_script_name = None
          /\ form_scripts w' = <[form_script_name := form_script_doc]> (form_scripts w)))
  /\ at_most_one_more (local_calls w) (local_calls w')
  /\ at_most_one_more (remote_calls w) (remote_calls w')
  /\ at_most_one_more (error_log w) (error_log w')
  /\ (local_calls w' = local_calls w \/ remote_calls w' = remote_calls w).
Proof.
  unfold at_most_one_more, quotation_filter_name, form_script_name,
    quotation_filter_doc, form_script_doc.
  unfold_module. run.
  destruct (enabled self); cbn; [| frame_facts].
  destruct (is_erpnext_in_the_current_site self); cbn.
  - destruct (bool_decide ("erpnext" ∈ installed_apps w)); cbn; [| frame_facts].
    destruct (property_setters w !! _) eqn:Hps; cbn;
      (destruct (local_response fw _ _); cbn;
       [destruct (raised_by_import fw _ _); cbn; frame_facts |]);
      destruct (form_scripts w !! _) eqn:Hfs; cbn; rewrite ?Hfs; cbn; frame_facts.
  - destruct (client_init fw _ _ _); cbn; [frame_facts |].
    destruct (remote_response fw _ _); cbn; [| frame_facts].
    destruct (form_scripts w !! _) eqn:Hfs; cbn; rewrite ?Hfs; cbn; frame_facts.
Qed.

(** X11. [validate] uses one backend only.  With ERPNext in the current site no
    request leaves the site and nothing is logged; with ERPNext remote no
    in-process ERPNext function is called and no property setter is made. *)
Theorem validate_uses_one_backend (fw : Framework) (self : Settings) (w : World) :
  let w' := world_after (validate fw self w) in
  (is_erpnext_in_the_current_site self = true ->
   remote_calls w' = remote_calls w /\ error_log w' = error_log w)
  /\ (is_erpnext_in_the_current_site self = false ->
      local_calls w' = local_calls w /\ property_setters w' = property_setters w).
Proof.
  unfold_module. run.
  destruct (enabled self); cbn; [| by repeat split].
  destruct (is_erpnext_in_the_current_site self); cbn;
    (split; intros Hmode; [try discriminate Hmode | try discriminate Hmode]).
  - destruct (bool_decide ("erpnext" ∈ installed_apps w)); cbn; [| done].
    destruct (property_setters w !! _) eqn:Hps; cbn;
      (destruct (local_response fw _ _); cbn;
       [by destruct (raised_by_import fw _ _) |]);
      by destruct (form_scripts w !! _) eqn:Hfs; cbn; rewrite ?Hfs.
  - destruct (client_init fw _ _ _); cbn; [done |].
    destruct (remote_response fw _ _); cbn; [| done].
    by destruct (form_scripts w !! _) eqn:Hfs; cbn; rewrite ?Hfs.
Qed.

(** ** [create_customer_in_erpnext] *)

(** X13. A won deal, integration enabled, ERPNext in the current site:
    [create_customer] is imported and called in process, once, with the
    customer built from the deal (group "All Customer Groups", type
    "Company"); no client is constructed and no request sent.  When the call
    returns, that one call is what changed.  When the import raises, no call
    has been made and the world is unchanged; when the call raises, it has
    been made.  Either exception comes out as it is, unlogged. *)
Theorem create_customer_in_erpnext_colocated
    (fw : Framework) (doc : Deal) (method : string) (w : World) :
  enabled (settings w) = true ->
  is_erpnext_in_the_current_site (settings w) = true ->
  status doc = "Won" ->
  create_customer_in_erpnext fw doc method w
  = match local_response fw (local_calls w) (create_customer (customer_payload fw doc)) with
    | None =>
        (Return tt,
         set_local_calls (fun l => l ++ [create_customer (customer_payload fw doc)]) w)
    | Some e =>
        (Raise e,
         if raised_by_import fw (local_calls w) (create_customer (customer_payload fw doc))
         then w
         else set_local_calls (fun l => l ++ [create_customer (customer_payload fw doc)]) w)
    end
  /\ dict_get "customer_name" (customer_payload fw doc) = Some (Str (organization doc))
  /\ dict_get "customer_group" (customer_payload fw doc) = Some (Str "All Customer Groups")
  /\ dict_get "customer_type" (customer_payload fw doc) = Some (Str "Company")
  /\ dict_get "crm_deal" (customer_payload fw doc) = Some (Str (name doc)).
Proof.
  intros Hon Hloc Hwon. repeat split.
  unfold customer_payload. unfold_module. run.
  rewrite Hon, Hloc, Hwon. cbn.
  destruct (local_response fw _ _); [| done].
  by destruct (raised_by_import fw _ _).
Qed.

Lemma create_customer_in_erpnext_colocated_witness :
  let fw := site_framework (Return "ok") None in
  let no_module :=
    local_failing_framework (Exception "ModuleNotFoundError: No module named 'erpnext'") true in
  let w := crm_site (site_settings true true) ["frappe"; "crm"; "erpnext"] in
  create_customer_in_erpnext fw (deal_001 "Won") "on_update" w
  = (Return tt,
     set_local_calls
       (fun l => l ++ [create_customer (customer_payload fw (deal_001 "Won"))]) w)
  /\ create_customer_in_erpnext no_module (deal_001 "Won") "on_update" w
     = (Raise (Exception "ModuleNotFoundError: No module named 'erpnext'"), w).
Proof.
  cbv zeta. split.
  - exact (proj1 (create_customer_in_erpnext_colocated (site_framework (Return "ok") None)
             (deal_001 "Won") "on_update"
             (crm_site (site_settings true true) ["frappe"; "crm"; "erpnext"])
             eq_refl eq_refl eq_refl)).
  - exact (proj1 (create_customer_in_erpnext_colocated
             (local_failing_framework
                (Exception "ModuleNotFoundError: No module named 'erpnext'") true)
             (deal_001 "Won") "on_update"
             (crm_site (site_settings true true) ["frappe"; "crm"; "erpnext"])
             eq_refl eq_refl eq_refl)).
Defined.

(** X14. A won deal, integration enabled, ERPNext remote: when the client is
    constructed and the remote procedure answers, exactly one request is
    made, [create_customer] with the same customer, the answer is dropped
    and nothing else changes. *)
Theorem create_customer_in_erpnext_remote
    (fw : Framework) (doc : Deal) (method : string) (w : World) (answer : string) :
  enabled (settings w) = true ->
  is_erpnext_in_the_current_site (settings w) = false ->
  status doc = "Won" ->
  client_init fw (erpnext_site_url (settings w)) (api_key (settings w))
    (api_secret (settings w)) = None ->
  remote_response fw (remote_calls w)
    (customer_request (settings w) (customer_payload fw doc)) = Return answer ->
  create_customer_in_erpnext fw doc method w
  = (Return tt,
     set_remote_calls
       (fun l => l ++ [customer_request (settings w) (customer_payload fw doc)]) w).
Proof.
  intros Hon Hloc Hwon Hinit Hanswer.
  unfold customer_request, customer_payload in *. unfold_module. run.
  rewrite Hon, Hloc, Hwon. cbn. rewrite Hinit. cbn. by rewrite Hanswer.
Qed.

Lemma create_customer_in_erpnext_remote_witness :
  let fw := site_framework (Return "CUST-0001") None in
  let w := crm_site (site_settings true false) ["frappe"; "crm"] in
  create_customer_in_erpnext fw (deal_001 "Won") "on_update" w
  = (Return tt,
     set_remote_calls
       (fun l => l ++ [customer_request (site_settings true false)
                         (customer_payload fw (deal_001 "Won"))]) w).
Proof.
  exact (create_customer_in_erpnext_remote (site_framework (Return "CUST-0001") None)
           (deal_001 "Won") "on_update"
           (crm_site (site_settings true false) ["frappe"; "crm"]) "CUST-0001"
           eq_refl eq_refl eq_refl eq_refl eq_refl).
Defined.

(** X15. Whatever the deal and the site, and however it ends,
    [create_customer_in_erpnext] leaves settings, installed apps, deals,
    property setters and form scripts alone, makes at most one call, in
    process or remote and never both, and writes at most one log entry, and
    that only with ERPNext remote. *)
Theorem create_customer_in_erpnext_footprint
    (fw : Framework) (doc : Deal) (method : string) (w : World) :
  let w' := world_after (create_customer_in_erpnext fw doc method w) in
  settings w' = settings w
  /\ installed_apps w' = installed_apps w
  /\ deals w' = deals w
  /\ property_setters w' = property_setters w
  /\ form_scripts w' = form_scripts w
  /\ at_most_one_more (local_calls w) (local_calls w')
  /\ at_most_one_more (remote_calls w) (remote_calls w')
  /\ at_most_one_more (error_log w) (error_log w')
  /\ (local_calls w' = local_calls w \/ remote_calls w' = remote_calls w)
  /\ (is_erpnext_in_the_current_site (settings w) = true -> error_log w' = error_log w).
Proof.
  unfold at_most_one_more. unfold_module. run.
  destruct (negb (enabled (settings w)) || negb (status doc =? "Won")%string); cbn;
    [by frame_facts |].
  destruct (is_erpnext_in_the_current_site (settings w)); cbn.
  - destruct (local_response fw _ _);
      [destruct (raised_by_import fw _ _) |]; cbn; by frame_facts.
  - destruct (client_init fw _ _ _); cbn; [by frame_facts |].
    destruct (remote_response fw _ _); cbn; by frame_facts.
Qed.

(** ** [get_contacts], once more *)

Lemma contact_projection_eq (c1 c2 : ContactRow) :
  contact_projection c1 = contact_projection c2 <-> same_projected_fields c1 c2.
Proof.
  unfold contact_projection, same_projected_fields. split.
  - intros H. by simplify_eq.
  - intros (-> & -> & -> & -> & -> & ->). done.
Qed.

Lemma map_contact_projection_eq (rows1 rows2 : list ContactRow) :
  map contact_projection rows1 = map contact_projection rows2
  <-> Forall2 same_projected_fields rows1 rows2.
Proof.
  revert rows2. induction rows1 as [|c1 rows1 IH]; intros [|c2 rows2]; simpl.
  - split; [constructor | done].
  - split; [done | by inversion 1].
  - split; [done | by inversion 1].
  - split.
    + intros [= ? ? ? ? ? ? Hrows]. constructor.
      * by repeat split.
      * by apply IH.
    + inversion 1 as [| ? ? ? ? Hc Hrows]; subst.
      f_equal; [by apply contact_projection_eq | by apply IH].
Qed.

(** X16. [get_contacts] gives the same list for two deals exactly when their
    contact rows agree, row by row, on the six fields it reads: nothing of
    those six is lost, and nothing else of the rows or of the deal gets in.
    Every dict it returns has the six keys, in the order of the source. *)
Theorem get_contacts_reads_six_fields (doc1 doc2 : Deal) :
  (get_contacts doc1 = get_contacts doc2
   <-> Forall2 same_projected_fields (contacts doc1) (contacts doc2))
  /\ Forall (fun d : dict => d.*1 = projected_keys) (get_contacts doc1).
Proof.
  assert (E : forall doc : Deal, get_contacts doc = map contact_projection (contacts doc)).
  { intros doc. unfold get_contacts. apply (get_contacts_loop (contacts doc) []). }
  rewrite !E. split; [apply map_contact_projection_eq |].
  induction (contacts doc1) as [|c rows IH]; simpl; by constructor.
Qed.

(** ** Repeated runs *)

(** X18. With the integration enabled, every [validate] that returns has made
    exactly one custom-field provisioning call, the in-process one or the
    remote one according to the settings: this step has no existence check,
    so each save of the settings provisions again. *)
Theorem validate_always_provisions_custom_fields
    (fw : Framework) (self : Settings) (w : World) :
  enabled self = true ->
  result (validate fw self w) = Return tt ->
  (is_erpnext_in_the_current_site self = true
   /\ local_calls (world_after (validate fw self w))
      = local_calls w ++ [create_custom_fields_for_frappe_crm]
   /\ remote_calls (world_after (validate fw self w)) = remote_calls w)
  \/ (is_erpnext_in_the_current_site self = false
      /\ remote_calls (world_after (validate fw self w))
         = remote_calls w ++ [custom_fields_request self]
      /\ local_calls (world_after (validate fw self w)) = local_calls w).
Proof.
  intros Hon. unfold custom_fields_request. unfold_module. rewrite Hon. run.
  destruct (is_erpnext_in_the_current_site self); cbn.
  - destruct (bool_decide ("erpnext" ∈ installed_apps w)); cbn; [| done].
    destruct (property_setters w !! _) eqn:Hps; cbn;
      (destruct (local_response fw _ _); cbn;
       [by destruct (raised_by_import fw _ _) |]);
      destruct (form_scripts w !! _) eqn:Hfs; cbn; rewrite ?Hfs; cbn;
      intros _; by left.
  - destruct (client_init fw _ _ _); cbn; [done |].
    destruct (remote_response fw _ _); cbn; [| done].
    destruct (form_scripts w !! _) eqn:Hfs; cbn; rewrite ?Hfs; cbn;
      intros _; by right.
Qed.

Lemma validate_always_provisions_custom_fields_witness :
  let fw := site_framework (Return "ok") None in
  let self := site_settings true false in
  remote_calls (world_after (validate fw self (provisioned_site self)))
  = [custom_fields_request self].
Proof.
  cbv zeta.
  destruct (validate_always_provisions_custom_fields (site_framework (Return "ok") None)
              (site_settings true false) (provisioned_site (site_settings true false))
              eq_refl eq_refl)
    as [(Hloc & _) | (_ & Hremote & _)].
  - discriminate Hloc.
  - exact Hremote.
Defined.

(** One run of the remote branch that goes through. *)
Lemma get_quotation_url_remote_run
    (fw : Framework) (crm_deal org : string) (w : World) (doc : Deal) (prospect : string) :
  enabled (settings w) = true ->
  is_erpnext_in_the_current_site (settings w) = false ->
  deals w !! crm_deal = Some doc ->
  client_init fw (erpnext_site_url (settings w)) (api_key (settings w))
    (api_secret (settings w)) = None ->
  remote_response fw (remote_calls w) (prospect_request fw (settings w) doc)
  = Return prospect ->
  get_quotation_url fw crm_deal org w
  = (Return ((erpnext_site_url (settings w) +:+ "/app/quotation")
             +:+ "/new?quotation_to=Prospect&crm_deal=" +:+ crm_deal
             +:+ "&party_name=" +:+ prospect),
     set_remote_calls (fun l => l ++ [prospect_request fw (settings w) doc]) w).
Proof.
  intros Hon Hloc Hdeal Hinit Hanswer. unfold prospect_request in *.
  unfold_module. run.
  rewrite Hon, Hloc. cbn. rewrite Hinit, Hdeal. cbn. by rewrite Hanswer.
Qed.

(** X19. [get_quotation_url] with ERPNext remote, run twice for the same deal
    with the remote site answering both times: the second run sends the same
    prospect request again, so two requests have gone out, and each URL
    carries the answer to its own request. *)
Theorem get_quotation_url_twice
    (fw : Framework) (crm_deal org : string) (w : World) (doc : Deal)
    (prospect1 prospect2 : string) :
  enabled (settings w) = true ->
  is_erpnext_in_the_current_site (settings w) = false ->
  deals w !! crm_deal = Some doc ->
  client_init fw (erpnext_site_url (settings w)) (api_key (settings w))
    (api_secret (settings w)) = None ->
  remote_response fw (remote_calls w) (prospect_request fw (settings w) doc)
  = Return prospect1 ->
  remote_response fw (remote_calls w ++ [prospect_request fw (settings w) doc])
    (prospect_request fw (settings w) doc)
  = Return prospect2 ->
  let w1 := world_after (get_quotation_url fw crm_deal org w) in
  get_quotation_url fw crm_deal org w1
  = (Return ((erpnext_site_url (settings w) +:+ "/app/quotation")
             +:+ "/new?quotation_to=Prospect&crm_deal=" +:+ crm_deal
             +:+ "&party_name=" +:+ prospect2),
     set_remote_calls
       (fun l => l ++ [prospect_request fw (settings w) doc;
                       prospect_request fw (settings w) doc]) w).
Proof.
  intros Hon Hloc Hdeal Hinit H1 H2 w1. subst w1.
  rewrite (get_quotation_url_remote_run fw crm_deal org w doc prospect1)
    by assumption.
  unfold world_after. cbn [snd].
  rewrite (get_quotation_url_remote_run fw crm_deal org _ doc prospect2)
    by assumption.
  unfold set_remote_calls. cbn. by rewrite <- app_assoc.
Qed.

Lemma get_quotation_url_twice_witness :
  let fw := site_framework (Return "PROSPECT-0001") None in
  let w := crm_site (site_settings true false) ["frappe"; "crm"] in
  length (remote_calls (world_after
    (get_quotation_url fw "DEAL-001" "Acme"
       (world_after (get_quotation_url fw "DEAL-001" "Acme" w)))))
  = 2.
Proof.
  cbv zeta.
  rewrite (get_quotation_url_twice (site_framework (Return "PROSPECT-0001") None)
             "DEAL-001" "Acme" (crm_site (site_settings true false) ["frappe"; "crm"])
             (deal_001 "Open") "PROSPECT-0001" "PROSPECT-0001"
             eq_refl eq_refl eq_refl eq_refl eq_refl eq_refl).
  reflexivity.
Defined.
